(** * Prisma Migrate: the [migrate deploy] and [migrate status] commands

    A shallow embedding of
    [src/packages/migrate/src/commands/MigrateDeploy.ts] (which holds the two
    command classes [MigrateDeploy] and [MigrateStatus]) and the properties of
    the diagnosis dispatch that the specification states about them.

    The commands are asynchronous TypeScript methods that print to the console,
    call the migration engine through a [Migrate] object and either return a
    message or throw.  They are embedded as computations in a writer monad over
    the observable events, with an outcome that is a returned value or a thrown
    error. *)

From Stdlib Require Import String Ascii List Bool Arith Lia.
From Stdlib Require Import DecimalString Sorted.
Import ListNotations.

Open Scope string_scope.
Open Scope list_scope.

(* ================================================================= *)
(** ** JavaScript string helpers *)

(** The line feed written [\n] in the source, or a literal line break inside a
    template literal. *)
Definition nl : string := String "010"%char EmptyString.

(** The double-quote character that the templates put around identifiers. *)
Definition dq : string := String "034"%char EmptyString.

(** String concatenation, as template interpolation and [+] perform it. *)
Infix "+++" := String.append (at level 60, right associativity).

Definition quoted (s : string) : string := dq +++ s +++ dq.

(** A template literal written over several source lines. *)
Definition lines (ls : list string) : string := String.concat nl ls.

(** [Array.prototype.join(sep)] on an array of strings. *)
Definition join (sep : string) (xs : list string) : string :=
  String.concat sep xs.

(** [`${xs}`] for an array [xs]: [Array.prototype.toString], which is
    [join(',')]. *)
Definition array_toString (xs : list string) : string := join "," xs.

(** [`${n}`] for a non-negative integer. *)
Definition number_toString (n : nat) : string :=
  NilZero.string_of_uint (Nat.to_uint n).

(** [n > 1 ? 's' : ''] *)
Definition plural (n : nat) : string :=
  if (1 <? n)%nat then "s" else EmptyString.

(** Truthiness of an optional string: [undefined] and the empty string are
    falsy. *)
Definition truthy (s : option string) : bool :=
  match s with
  | Some (String _ _) => true
  | _ => false
  end.

(** String coercion of an optional string (['' + x]), as chalk applies it to
    its single argument. *)
Definition coerce (s : option string) : string :=
  match s with
  | Some s => s
  | None => "undefined"
  end.

(* ================================================================= *)
(** ** Data model *)

(** Modelled from the spec: the engine types [HistoryDiagnostic],
    [DriftDiagnostic] and [DiagnoseMigrationHistoryOutput] are declared outside
    the command file.  The commands read [history?.diagnostic] and
    [drift?.diagnostic] with optional chaining; an absent [history] is the
    spec's [inSync] and an absent [drift] its [noDrift].  Both history variants
    that the code tests for carry [unappliedMigrationNames], which the status
    command reads under either tag. *)
Inductive HistoryDiagnostic : Type :=
| inSync
| databaseIsBehind (unappliedMigrationNames : list string)
| historiesDiverge (unappliedMigrationNames : list string).

Inductive DriftReport : Type :=
| noDrift
| driftDetected (rollback : option string).

Record DiagnoseResult : Type := mkDiagnoseResult {
  hasMigrationsTable : bool;
  history : HistoryDiagnostic;
  drift : DriftReport;
  failedMigrationNames : list string;
  editedMigrationNames : list string
}.

Record ListMigrationDirectoriesResult : Type := mkListing {
  migrations : list string
}.

Record ApplyMigrationsOutput : Type := mkApplied {
  appliedMigrationNames : list string
}.

(** [diagnoseResult.history.unappliedMigrationNames] once the tag has been
    narrowed to one of the two variants that have the field. *)
Definition unappliedMigrationNames_of (h : HistoryDiagnostic) : list string :=
  match h with
  | inSync => []
  | databaseIsBehind names => names
  | historiesDiverge names => names
  end.

(** [history?.diagnostic === 'databaseIsBehind'] *)
Definition is_databaseIsBehind (h : HistoryDiagnostic) : bool :=
  match h with databaseIsBehind _ => true | _ => false end.

(** [history?.diagnostic === 'historiesDiverge'] *)
Definition is_historiesDiverge (h : HistoryDiagnostic) : bool :=
  match h with historiesDiverge _ => true | _ => false end.

(** [drift?.diagnostic === 'driftDetected'] *)
Definition is_driftDetected (d : DriftReport) : bool :=
  match d with driftDetected _ => true | noDrift => false end.

(** [drift.rollback] *)
Definition rollback_of (d : DriftReport) : option string :=
  match d with driftDetected r => r | noDrift => None end.

(* ================================================================= *)
(** ** Errors, events and the command monad *)

(** The error classes the two commands throw themselves, and errors that come
    out of a collaborator (engine, file system, database). *)
Inductive Error : Type :=
| ExperimentalFlagWithNewMigrateError
| EarlyAcessFlagError
| NoSchemaFoundError
| HowToBaselineError
| CollaboratorError (message : string).

Inductive Outcome (A : Type) : Type :=
| Returned (a : A)
| Thrown (e : Error).
Arguments Returned {A} a.
Arguments Thrown {A} e.

(** What a run of a command does that can be observed from outside. *)
Inductive Event : Type :=
| ConsoleInfo (text : string)
| DiagnoseMigrationHistory
| ListMigrationDirectories
| ApplyMigrations
| Stop.

Definition Run (A : Type) : Type := (list Event * Outcome A)%type.

Definition trace {A} (r : Run A) : list Event := fst r.
Definition outcome {A} (r : Run A) : Outcome A := snd r.

Definition ret {A} (a : A) : Run A := ([], Returned a).
Definition throw {A} (e : Error) : Run A := ([], Thrown e).

Definition bind {A B} (m : Run A) (k : A -> Run B) : Run B :=
  match m with
  | (t, Returned a) => let (t', r) := k a in (t ++ t', r)
  | (t, Thrown e) => (t, Thrown e)
  end.

Declare Scope run_scope.
Delimit Scope run_scope with run.
Notation "x <- m ;; k" := (bind m (fun x => k))
  (at level 61, m at next level, right associativity) : run_scope.
Notation "m ;; k" := (bind m (fun _ => k))
  (at level 61, right associativity) : run_scope.
Open Scope run_scope.

Definition emit (e : Event) : Run unit := ([e], Returned tt).

(** [console.info(text)]; [console.info()] prints an empty line. *)
Definition console_info (text : string) : Run unit := emit (ConsoleInfo text).

(** [await] of a collaborator call: the call is observed, then its result is
    returned or its rejection thrown. *)
Definition await {A} (call : Event) (result : Outcome A) : Run A :=
  ([call], result).

(** [if (c) { m }] with no else branch. *)
Definition when (c : bool) (m : Run unit) : Run unit :=
  if c then m else ret tt.

(* ================================================================= *)
(** ** External collaborators *)

(** The styles of the [chalk] package that the commands use.  How a style
    renders depends on the terminal. *)
Class Chalk : Type := {
  chalk : string -> string;
  chalk_bold : string -> string;
  chalk_dim : string -> string;
  chalk_bold_red : string -> string;
  chalk_bold_yellow : string -> string;
  chalk_grey : string -> string;
  chalk_yellow : string -> string;
  chalk_greenBright : string -> string;
  chalk_bold_greenBright : string -> string
}.

(** [getCommandWithExecutor] of [@prisma/sdk] prefixes a command with the
    package runner in use and [format] lays out a help text;
    [printFilesFromMigrationIds] of [../utils/printFiles] renders the tree of
    applied migration files. *)
Class Sdk : Type := {
  getCommandWithExecutor : string -> string;
  format : string -> string;
  printFilesFromMigrationIds : string -> list string -> string
}.

(** The [Migrate] object: the outcome of each engine call of one run. *)
Record Migrate : Type := mkMigrate {
  diagnoseMigrationHistory : Outcome DiagnoseResult;
  listMigrationDirectories : Outcome ListMigrationDirectoriesResult;
  applyMigrations : Outcome ApplyMigrationsOutput
}.

(** The parsed command line, [arg(argv, {...}, false)]: the flags, or the
    message of the error that [isError] recognises. *)
Record Args : Type := mkArgs {
  flag_help : bool;
  flag_experimental : bool;
  flag_early_access_feature : bool;
  flag_schema : option string
}.

Record DbInfo : Type := mkDbInfo {
  name : string;
  dbType : string;
  schemaWord : string;
  dbName : string;
  dbLocation : string
}.

(** Everything else a run depends on: the command line as parsed, the file
    system and the database. *)
Record Environment : Type := mkEnvironment {
  arg : Args + string;
  getSchemaPath : option string -> option string;
  path_relative : string -> string;
  getDbInfo : string -> DbInfo;
  throwUpgradeErrorIfOldMigrate : string -> Outcome unit;
  ensureDatabaseExists : string -> Outcome (option string);
  ensureCanConnectToDatabase : string -> Outcome unit;
  new_Migrate : string -> Migrate
}.

(** A call whose only observable effect is its result. *)
Definition call {A} (result : Outcome A) : Run A := ([], result).

(** What [parse] resolves to: a message, or the [HelpError] that [help]
    builds (returned, not thrown). *)
Inductive Reply : Type :=
| Message (text : string)
| HelpError (message : string).

(* ================================================================= *)
(** ** [class MigrateStatus] *)

Module MigrateStatus.
Section Command.
Context {styles : Chalk} {sdk : Sdk}.

(** [private static help] *)
Definition help_text : string :=
  format (lines [
    EmptyString;
    "  Check the status of your database migrations in staging/production";
    EmptyString;
    "  " +++ chalk_bold_yellow "WARNING" +++ " " +++
      chalk_bold "Prisma's migration functionality is currently in Early Access.";
    "  " +++ chalk_dim "When using any of the commands below you need to explicitly opt-in via the --early-access-feature flag.";
    "  ";
    "  " +++ chalk_bold "Usage";
    EmptyString;
    "    " +++ chalk_dim "$" +++ " prisma migrate status [options] --early-access-feature";
    "    ";
    "  " +++ chalk_bold "Options";
    EmptyString;
    "          -h, --help   Display this help message";
    "            --schema   Custom path to your Prisma schema";
    EmptyString;
    "  " +++ chalk_bold "Examples";
    EmptyString;
    "  Check the status of your database migrations";
    "  " +++ chalk_dim "$" +++ " prisma migrate status --early-access-feature";
    EmptyString;
    "  Specify a schema";
    "  " +++ chalk_dim "$" +++ " prisma migrate status --schema=./schema.prisma --early-access-feature";
    EmptyString
  ]).

(** [public help(error?: string): string | HelpError] *)
Definition help (error : option string) : Reply :=
  if truthy error then
    HelpError (nl +++ chalk_bold_red "!" +++ " " +++ coerce error +++ nl +++ help_text)
  else Message help_text.

(** The notice of lines 317-331 about migrations that are not applied. *)
Definition unappliedNotice (unappliedMigrations : list string) : string :=
  lines [
    "Following migration" +++ plural (List.length unappliedMigrations) +++
      " have not yet been applied:";
    join nl unappliedMigrations;
    EmptyString;
    "To apply migrations in development run " +++
      chalk_bold_greenBright
        (getCommandWithExecutor "prisma migrate dev --early-access-feature") +++ ".";
    "To apply migrations in production run " +++
      chalk_bold_greenBright
        (getCommandWithExecutor "prisma migrate deploy --early-access-feature") +++ "."
  ].

(** The command [prisma migrate resolve --applied "<id>"] as the messages
    show it. *)
Definition resolveApplied (migrationId : string) : string :=
  chalk_bold_greenBright
    (getCommandWithExecutor
       ("prisma migrate resolve --applied " +++ quoted migrationId +++
        " --early-access-feature")).

(** The command [prisma migrate resolve --rolledback "<id>"]. *)
Definition resolveRolledback (migrationId : string) : string :=
  chalk_bold_greenBright
    (getCommandWithExecutor
       ("prisma migrate resolve --rolledback " +++ quoted migrationId +++
        " --early-access-feature")).

(** The message returned in the baselining case (lines 348-358). *)
Definition baselineAdvice (migrationId : string) : string :=
  lines [
    "The current database is not managed by Prisma Migrate.";
    EmptyString;
    "If you want to keep the current database structure and data and create new migrations, baseline this database with the migration " +++
      quoted migrationId +++ ":";
    resolveApplied migrationId;
    EmptyString;
    "Read more about how to baseline an existing production database:";
    "https://pris.ly/d/migrate-baseline"
  ].

(** The list of failed migrations printed in the recovery case (lines
    368-377). *)
Definition failedNotice (failedMigrations : list string) : string :=
  lines [
    "Following migration" +++ plural (List.length failedMigrations) +++
      " have failed:";
    join nl failedMigrations;
    EmptyString;
    "During development if the failed migration(s) have not been deployed to a production database you can then fix the migration(s) and run " +++
      chalk_bold_greenBright
        (getCommandWithExecutor "prisma migrate dev --early-access-feature") +++
      "." +++ nl
  ].

(** Lines 383-384. *)
Definition rollbackNotice (rollback : option string) : string :=
  lines [
    "Prisma Migrate generated a script to do a manual rollback";
    chalk_grey (coerce rollback)
  ].

(** The message returned in the recovery case (lines 387-404);
    [migrationId] is what the source writes [failedMigrations[0]]. *)
Definition failedAdvice (migrationId : string) : string :=
  lines [
    "The failed migration(s) can be marked as rolled back or applied:";
    "      ";
    "- If you rolled back the migration(s) manually:";
    resolveRolledback migrationId;
    EmptyString;
    "- If you fixed the database manually (hotfix):";
    resolveApplied migrationId;
    EmptyString;
    "Read more about how to resolve migration issues in a production database:";
    "https://pris.ly/d/migrate-resolve"
  ].

(** The message returned in the drift case (lines 418-437); [migrationId]
    is the interpolated text of the source variable of that name. *)
Definition driftAdvice (rollback : option string) (migrationId : string)
  : string :=
  lines [
    "The current database schema is not in sync with your Prisma schema.";
    "This is the script to roll back manually:";
    chalk_grey (coerce rollback);
    EmptyString;
    "You have 2 options";
    EmptyString;
    "1. To keep the database structure change run: ";
    "- " +++ chalk_bold_greenBright (getCommandWithExecutor "prisma introspect") +++
      " to update your schema with the change.";
    "- " +++
      chalk_bold_greenBright
        (getCommandWithExecutor "prisma migrate dev --early-access-feature") +++
      " to create a new migration matching the change.";
    "      ";
    "2. You corrected the change in a migration but applied it to the database without using Migrate (hotfix):";
    "- " +++ resolveApplied migrationId +++
      " to create a new migration matching the drift."
  ].

Definition upToDate : string := "Database schema is up to date!".

(** The second half of [parse] (lines 302-441): what the command prints and
    answers once the engine has delivered [diagnoseResult] and
    [listMigrationDirectoriesResult].  [migrations.shift()] takes the first
    element of the listing (the listing is not used afterwards);
    [failedMigrations[0]] is an index access.  In the drift case the variable
    [migrationId] is bound to the whole array [unappliedMigrationNames] and
    interpolated as such. *)
Definition report (diagnoseResult : DiagnoseResult)
    (listMigrationDirectoriesResult : ListMigrationDirectoriesResult)
  : Run string :=
  console_info (nl +++ "Status") ;;
  (if (0 <? List.length (migrations listMigrationDirectoriesResult))%nat then
     let migrations := migrations listMigrationDirectoriesResult in
     console_info
       (number_toString (List.length migrations) +++ " migration" +++
        plural (List.length migrations) +++ " found in prisma/migrations" +++ nl)
   else
     console_info ("No migration found in prisma/migrations" +++ nl)) ;;
  when (is_databaseIsBehind (history diagnoseResult))
    (let unappliedMigrations :=
       unappliedMigrationNames_of (history diagnoseResult) in
     console_info (unappliedNotice unappliedMigrations)) ;;
  if negb (hasMigrationsTable diagnoseResult) then
    if (List.length (migrations listMigrationDirectoriesResult) =? 0)%nat then
      throw HowToBaselineError
    else
      let migrationId :=
        coerce (hd_error (migrations listMigrationDirectoriesResult)) in
      ret (baselineAdvice migrationId)
  else if (0 <? List.length (failedMigrationNames diagnoseResult))%nat then
    let failedMigrations := failedMigrationNames diagnoseResult in
    console_info (failedNotice failedMigrations) ;;
    when (is_driftDetected (drift diagnoseResult) &&
          truthy (rollback_of (drift diagnoseResult)))
      (console_info (rollbackNotice (rollback_of (drift diagnoseResult)))) ;;
    ret (failedAdvice (coerce (nth_error failedMigrations 0)))
  else if is_driftDetected (drift diagnoseResult) &&
          (is_databaseIsBehind (history diagnoseResult) ||
           is_historiesDiverge (history diagnoseResult)) then
    let migrationId :=
      array_toString (unappliedMigrationNames_of (history diagnoseResult)) in
    ret (driftAdvice (rollback_of (drift diagnoseResult)) migrationId)
  else
    console_info EmptyString ;;
    ret upToDate.

(** [public async parse(argv: string[]): Promise<string | Error>].  The
    [debug] logging is left out. *)
Definition parse (env : Environment) : Run Reply :=
  match arg env with
  | inr message => ret (help (Some message))
  | inl args =>
    if flag_help args then ret (help None)
    else if flag_experimental args then
      throw ExperimentalFlagWithNewMigrateError
    else if negb (flag_early_access_feature args) then
      throw EarlyAcessFlagError
    else
      let schemaPath := getSchemaPath env (flag_schema args) in
      if negb (truthy schemaPath) then throw NoSchemaFoundError
      else
        let schemaPath := coerce schemaPath in
        console_info
          (chalk_dim ("Prisma schema loaded from " +++
                      path_relative env schemaPath)) ;;
        let dbInfo := getDbInfo env schemaPath in
        console_info
          (chalk_dim ("Datasource " +++ quoted (name dbInfo) +++ ": " +++
                      dbType dbInfo +++ " " +++ schemaWord dbInfo +++ " " +++
                      quoted (dbName dbInfo) +++ " at " +++
                      quoted (dbLocation dbInfo))) ;;
        call (throwUpgradeErrorIfOldMigrate env schemaPath) ;;
        let migrate := new_Migrate env schemaPath in
        call (ensureCanConnectToDatabase env schemaPath) ;;
        diagnoseResult <-
          await DiagnoseMigrationHistory (diagnoseMigrationHistory migrate) ;;
        listMigrationDirectoriesResult <-
          await ListMigrationDirectories (listMigrationDirectories migrate) ;;
        emit Stop ;;
        message <- report diagnoseResult listMigrationDirectoriesResult ;;
        ret (Message message)
  end.

End Command.
End MigrateStatus.

(* ================================================================= *)
(** ** [class MigrateDeploy] *)

Module MigrateDeploy.
Section Command.
Context {styles : Chalk} {sdk : Sdk}.

(** [private static help] *)
Definition help_text : string :=
  format (lines [
    EmptyString;
    "Apply migrations to update the database schema in staging/production";
    EmptyString;
    chalk_bold_yellow "WARNING" +++ " " +++
      chalk_bold "Prisma's migration functionality is currently in Early Access.";
    chalk_dim "When using any of the commands below you need to explicitly opt-in via the --early-access-feature flag.";
    EmptyString;
    chalk_bold "Usage";
    EmptyString;
    "  " +++ chalk_dim "$" +++ " prisma migrate deploy [options] --early-access-feature";
    EmptyString;
    chalk_bold "Options";
    EmptyString;
    "  -h, --help   Display this help message";
    "    --schema   Custom path to your Prisma schema";
    EmptyString
  ]).

(** [public help(error?: string): string | HelpError] *)
Definition help (error : option string) : Reply :=
  if truthy error then
    HelpError (nl +++ chalk_bold_red "!" +++ " " +++ coerce error +++ nl +++ help_text)
  else Message help_text.

(** The warning of lines 132-137 about migrations edited after they were
    applied. *)
Definition editedWarning (editedMigrationNames : list string) : string :=
  lines [
    chalk_yellow
      "WARNING The following migrations have been modified since they were applied:";
    join nl editedMigrationNames
  ].

Definition noPending : string :=
  chalk_greenBright "No pending migrations to apply.".

(** The message of lines 150-158. *)
Definition appliedReport (migrationIds : list string) : string :=
  "The following migration" +++ plural (List.length migrationIds) +++
  " have been applied:" +++ nl +++ nl +++
  lines [
    chalk (printFilesFromMigrationIds "migrations" migrationIds);
    "      ";
    chalk_greenBright "All migrations have been successfully applied."
  ].

(** The second half of [parse] (lines 118-159): what the command does once
    the engine has delivered [diagnoseResult] and
    [listMigrationDirectoriesResult].  The only field of the diagnosis that
    is read is [editedMigrationNames]. *)
Definition deploy (migrate : Migrate) (diagnoseResult : DiagnoseResult)
    (listMigrationDirectoriesResult : ListMigrationDirectoriesResult)
  : Run string :=
  console_info EmptyString ;;
  (if (0 <? List.length (migrations listMigrationDirectoriesResult))%nat then
     let migrations := migrations listMigrationDirectoriesResult in
     console_info
       (number_toString (List.length migrations) +++ " migration" +++
        plural (List.length migrations) +++ " found in prisma/migrations")
   else
     console_info "No migration found in prisma/migrations") ;;
  let editedMigrationNames := editedMigrationNames diagnoseResult in
  when (0 <? List.length editedMigrationNames)%nat
    (console_info (editedWarning editedMigrationNames)) ;;
  applied <- await ApplyMigrations (applyMigrations migrate) ;;
  let migrationIds := appliedMigrationNames applied in
  emit Stop ;;
  console_info EmptyString ;;
  if (List.length migrationIds =? 0)%nat then
    ret noPending
  else
    ret (appliedReport migrationIds).

(** [public async parse(argv: string[]): Promise<string | Error>].  The
    [debug] logging is left out. *)
Definition parse (env : Environment) : Run Reply :=
  match arg env with
  | inr message => ret (help (Some message))
  | inl args =>
    if flag_help args then ret (help None)
    else if flag_experimental args then
      throw ExperimentalFlagWithNewMigrateError
    else if negb (flag_early_access_feature args) then
      throw EarlyAcessFlagError
    else
      let schemaPath := getSchemaPath env (flag_schema args) in
      if negb (truthy schemaPath) then throw NoSchemaFoundError
      else
        let schemaPath := coerce schemaPath in
        console_info
          (chalk_dim ("Prisma schema loaded from " +++
                      path_relative env schemaPath)) ;;
        let dbInfo := getDbInfo env schemaPath in
        console_info
          (chalk_dim ("Datasource " +++ quoted (name dbInfo) +++ ": " +++
                      dbType dbInfo +++ " " +++ schemaWord dbInfo +++ " " +++
                      quoted (dbName dbInfo) +++ " at " +++
                      quoted (dbLocation dbInfo))) ;;
        call (throwUpgradeErrorIfOldMigrate env schemaPath) ;;
        let migrate := new_Migrate env schemaPath in
        wasDbCreated <- call (ensureDatabaseExists env schemaPath) ;;
        when (truthy wasDbCreated)
          (console_info EmptyString ;;
           console_info (coerce wasDbCreated)) ;;
        diagnoseResult <-
          await DiagnoseMigrationHistory (diagnoseMigrationHistory migrate) ;;
        listMigrationDirectoriesResult <-
          await ListMigrationDirectories (listMigrationDirectories migrate) ;;
        message <- deploy migrate diagnoseResult listMigrationDirectoriesResult ;;
        ret (Message message)
  end.

End Command.
End MigrateDeploy.

(* ================================================================= *)
(** ** A plain terminal *)

(** Styles that leave the text as it is (a terminal without colours). *)
Definition plainChalk : Chalk := {|
  chalk := fun s => s;
  chalk_bold := fun s => s;
  chalk_dim := fun s => s;
  chalk_bold_red := fun s => s;
  chalk_bold_yellow := fun s => s;
  chalk_grey := fun s => s;
  chalk_yellow := fun s => s;
  chalk_greenBright := fun s => s;
  chalk_bold_greenBright := fun s => s
|}.

(** Commands run through [npx]; files listed one per line under their
    directory. *)
Definition npxSdk : Sdk := {|
  getCommandWithExecutor := fun command => "npx " +++ command;
  format := fun text => text;
  printFilesFromMigrationIds := fun directory migrationIds =>
    join nl (map (fun id => directory +++ "/" +++ id +++ "/migration.sql")
                 migrationIds)
|}.

(* ================================================================= *)
(** ** Reading the specification against the code *)

(** The spec's four primary branches of the status command, in the order in
    which it says they are tried. *)
Inductive Branch : Type :=
| NoMigrationsTable
| FailedMigrations
| DriftWithHistory
| UpToDate.

Definition precedence : list Branch :=
  [NoMigrationsTable; FailedMigrations; DriftWithHistory; UpToDate].

(** The condition under which the spec says a branch applies, each one taken
    on its own. *)
Definition applies (b : Branch) (d : DiagnoseResult) : bool :=
  match b with
  | NoMigrationsTable => negb (hasMigrationsTable d)
  | FailedMigrations =>
      match failedMigrationNames d with [] => false | _ :: _ => true end
  | DriftWithHistory =>
      match drift d, history d with
      | driftDetected _, databaseIsBehind _ => true
      | driftDetected _, historiesDiverge _ => true
      | _, _ => false
      end
  | UpToDate => true
  end.

(** First match wins. *)
Definition first_match (d : DiagnoseResult) : Branch :=
  match find (fun b => applies b d) precedence with
  | Some b => b
  | None => UpToDate
  end.

(** Spec side: identifiers sort chronologically, so the earlier of two
    migrations is the one whose identifier is the smaller string. *)
Definition earlier (a b : string) : string :=
  if String.leb a b then a else b.

(** Spec side: the chronologically earliest of a list of migrations. *)
Definition chronologically_earliest (names : list string) : option string :=
  match names with
  | [] => None
  | first :: others => Some (fold_left earlier others first)
  end.

(** Spec side: a list of migrations that is in chronological order. *)
Definition chronological (names : list string) : Prop :=
  StronglySorted (fun a b => String.leb a b = true) names.

Section Answers.
Context {styles : Chalk} {sdk : Sdk}.

(** What each branch of the status command answers when it is the one
    taken. *)
Definition answer (b : Branch) (d : DiagnoseResult)
    (l : ListMigrationDirectoriesResult) : Outcome string :=
  match b with
  | NoMigrationsTable =>
      match migrations l with
      | [] => Thrown HowToBaselineError
      | oldest :: _ => Returned (MigrateStatus.baselineAdvice oldest)
      end
  | FailedMigrations =>
      Returned (MigrateStatus.failedAdvice
                  (coerce (hd_error (failedMigrationNames d))))
  | DriftWithHistory =>
      Returned (MigrateStatus.driftAdvice (rollback_of (drift d))
                  (array_toString (unappliedMigrationNames_of (history d))))
  | UpToDate => Returned MigrateStatus.upToDate
  end.

(** What the deploy command answers for a given result of
    [applyMigrations]. *)
Definition deployed (result : Outcome ApplyMigrationsOutput) : Outcome string :=
  match result with
  | Returned applied =>
      match appliedMigrationNames applied with
      | [] => Returned MigrateDeploy.noPending
      | _ :: _ =>
          Returned (MigrateDeploy.appliedReport (appliedMigrationNames applied))
      end
  | Thrown e => Thrown e
  end.
End Answers.

(** [d] with its list of failed migrations replaced. *)
Definition with_failedMigrationNames (d : DiagnoseResult) (names : list string)
  : DiagnoseResult :=
  {| hasMigrationsTable := hasMigrationsTable d;
     history := history d;
     drift := drift d;
     failedMigrationNames := names;
     editedMigrationNames := editedMigrationNames d |}.

(** [d] with its list of edited migrations replaced. *)
Definition with_editedMigrationNames (d : DiagnoseResult) (names : list string)
  : DiagnoseResult :=
  {| hasMigrationsTable := hasMigrationsTable d;
     history := history d;
     drift := drift d;
     failedMigrationNames := failedMigrationNames d;
     editedMigrationNames := names |}.

(** How often a trace calls [applyMigrations]. *)
Definition applyMigrations_calls (t : list Event) : nat :=
  List.length
    (filter (fun e => match e with ApplyMigrations => true | _ => false end) t).

(** A command line and surroundings under which [parse] gets as far as the
    two engine calls, which deliver [d] and [l]. *)
Definition reaches_diagnosis (env : Environment) (schemaPath : string)
    (d : DiagnoseResult) (l : ListMigrationDirectoriesResult) : Prop :=
  exists args c rest created,
    arg env = inl args /\
    flag_help args = false /\
    flag_experimental args = false /\
    flag_early_access_feature args = true /\
    getSchemaPath env (flag_schema args) = Some schemaPath /\
    schemaPath = String c rest /\
    throwUpgradeErrorIfOldMigrate env schemaPath = Returned tt /\
    ensureCanConnectToDatabase env schemaPath = Returned tt /\
    ensureDatabaseExists env schemaPath = Returned created /\
    diagnoseMigrationHistory (new_Migrate env schemaPath) = Returned d /\
    listMigrationDirectories (new_Migrate env schemaPath) = Returned l.

(** A returned message as [parse] hands it on. *)
Definition as_reply (o : Outcome string) : Outcome Reply :=
  match o with
  | Returned text => Returned (Message text)
  | Thrown e => Thrown e
  end.

(** [text] shows [part] somewhere inside it. *)
Definition mentions (text part : string) : Prop :=
  exists before after, text = before +++ part +++ after.

(* ================================================================= *)
(** ** Sample diagnoses *)

Definition init_migration : string := "20201201120000_init".
Definition index_migration : string := "20201202120000_add_index".

(** Two local migrations, the older one first. *)
Definition two_migrations : ListMigrationDirectoriesResult :=
  mkListing [init_migration; index_migration].

Definition no_migrations : ListMigrationDirectoriesResult := mkListing [].

(** A database that Prisma Migrate has never touched. *)
Definition unmanaged : DiagnoseResult :=
  mkDiagnoseResult false inSync noDrift [] [].

(** No migrations table, yet failed migrations are reported and the local
    directory is ahead. *)
Definition unmanaged_with_failure : DiagnoseResult :=
  mkDiagnoseResult false (databaseIsBehind [index_migration]) noDrift
    [init_migration] [].

(** Both migrations failed; the list names the later one first. *)
Definition failed_out_of_order : DiagnoseResult :=
  mkDiagnoseResult true inSync noDrift [index_migration; init_migration] [].

(** Both migrations failed, listed in the order they were applied. *)
Definition failed_in_order : DiagnoseResult :=
  mkDiagnoseResult true inSync noDrift [init_migration; index_migration] [].

(** History and schema agree, but the first migration is recorded as
    failed. *)
Definition in_sync_with_failure : DiagnoseResult :=
  mkDiagnoseResult true inSync noDrift [init_migration] [].

(** Everything agrees. *)
Definition all_applied : DiagnoseResult :=
  mkDiagnoseResult true inSync noDrift [] [].

(** The schema drifted and both local migrations are unapplied. *)
Definition drifted_behind : DiagnoseResult :=
  mkDiagnoseResult true (databaseIsBehind [init_migration; index_migration])
    (driftDetected (Some "DROP TABLE users;")) [] [].

(** A failed migration, diverged histories and drift, all at once, and an
    applied migration that was edited afterwards. *)
Definition broken : DiagnoseResult :=
  mkDiagnoseResult true (historiesDiverge [index_migration])
    (driftDetected None) [init_migration] [init_migration].

(** An engine that applies the second migration when asked. *)
Definition applying_engine : Migrate :=
  mkMigrate (Returned broken) (Returned two_migrations)
    (Returned (mkApplied [index_migration])).

(** An engine that finds nothing to apply. *)
Definition idle_engine : Migrate :=
  mkMigrate (Returned all_applied) (Returned two_migrations)
    (Returned (mkApplied [])).

(** A command line with the early-access flag, a schema that is found and a
    database that can be reached. *)
Definition sample_environment (migrate : Migrate) : Environment := {|
  arg := inl (mkArgs false false true None);
  getSchemaPath := fun _ => Some "prisma/schema.prisma";
  path_relative := fun p => p;
  getDbInfo := fun _ =>
    mkDbInfo "db" "PostgreSQL" "schema" "public" "localhost:5432";
  throwUpgradeErrorIfOldMigrate := fun _ => Returned tt;
  ensureDatabaseExists := fun _ => Returned None;
  ensureCanConnectToDatabase := fun _ => Returned tt;
  new_Migrate := fun _ => migrate
|}.

(* ================================================================= *)
(** ** Observing a run *)

(** The calls to the engine in a trace, in order, without the console
    output. *)
Definition engine_calls (t : list Event) : list Event :=
  filter (fun e => match e with ConsoleInfo _ => false | _ => true end) t.

(** [a] is an initial part of [b]. *)
Definition prefix_of {A} (a b : list A) : Prop := exists rest, b = a ++ rest.

(** The command line has opted in and a schema is found at [schemaPath]:
    [parse] gets past its flag checks. *)
Definition opted_in (env : Environment) (schemaPath : string) : Prop :=
  exists args c rest,
    arg env = inl args /\
    flag_help args = false /\
    flag_experimental args = false /\
    flag_early_access_feature args = true /\
    getSchemaPath env (flag_schema args) = Some schemaPath /\
    schemaPath = String c rest.

(** An environment like [sample_environment] with the command line [a] and
    the outcomes of the checks that precede the engine calls. *)
Definition environment_with (a : Args + string) (upgrade connect : Outcome unit)
    (created : Outcome (option string)) (migrate : Migrate) : Environment := {|
  arg := a;
  getSchemaPath := fun _ => Some "prisma/schema.prisma";
  path_relative := fun p => p;
  getDbInfo := fun _ =>
    mkDbInfo "db" "PostgreSQL" "schema" "public" "localhost:5432";
  throwUpgradeErrorIfOldMigrate := fun _ => upgrade;
  ensureDatabaseExists := fun _ => created;
  ensureCanConnectToDatabase := fun _ => connect;
  new_Migrate := fun _ => migrate
|}.

(** The command line [--early-access-feature]. *)
Definition early_access : Args + string := inl (mkArgs false false true None).

(** The database cannot be reached. *)
Definition unreachable : Error := CollaboratorError "P1001".

(** An engine whose diagnosis fails. *)
Definition failing_engine : Migrate :=
  mkMigrate (Thrown unreachable) (Returned two_migrations)
    (Returned (mkApplied [])).

(** An engine that diagnoses and lists, and fails to apply. *)
Definition engine_failing_to_apply : Migrate :=
  mkMigrate (Returned broken) (Returned two_migrations) (Thrown unreachable).

(** The database is behind by one migration and has not drifted. *)
Definition behind_without_drift : DiagnoseResult :=
  mkDiagnoseResult true (databaseIsBehind [index_migration]) noDrift [] [].

(** The schema drifted and one local migration is unapplied. *)
Definition drifted_behind_by_one : DiagnoseResult :=
  mkDiagnoseResult true (databaseIsBehind [index_migration])
    (driftDetected (Some "DROP TABLE users;")) [] [].

(** Two failed migrations and a drift for which the engine has a rollback
    script. *)
Definition failed_with_rollback : DiagnoseResult :=
  mkDiagnoseResult true inSync (driftDetected (Some "DROP TABLE users;"))
    [init_migration; index_migration] [].

(* ================================================================= *)
(** ** The command monad *)

Lemma trace_bind_returned {A B} (m : Run A) (k : A -> Run B) (a : A) :
  outcome m = Returned a ->
  trace (bind m k) = trace m ++ trace (k a).
Proof.
  destruct m as [t o]; simpl; intros ->.
  unfold bind. destruct (k a); reflexivity.
Qed.

Lemma outcome_bind_returned {A B} (m : Run A) (k : A -> Run B) (a : A) :
  outcome m = Returned a ->
  outcome (bind m k) = outcome (k a).
Proof.
  destruct m as [t o]; simpl; intros ->.
  unfold bind. destruct (k a); reflexivity.
Qed.

Lemma bind_thrown {A B} (m : Run A) (k : A -> Run B) (e : Error) :
  outcome m = Thrown e ->
  bind m k = (trace m, Thrown e).
Proof.
  destruct m as [t o]; simpl; intros ->. reflexivity.
Qed.

Lemma bind_emit {B} (t : list Event) (k : unit -> Run B) :
  bind (t, Returned tt) k = (t ++ trace (k tt), outcome (k tt)).
Proof.
  unfold bind. destruct (k tt); reflexivity.
Qed.

Lemma bind_assoc {A B C} (m : Run A) (k : A -> Run B) (h : B -> Run C) :
  bind (bind m k) h = bind m (fun a => bind (k a) h).
Proof.
  destruct m as [t [a | e]]; simpl; [| reflexivity].
  destruct (k a) as [t' [b | e]]; simpl; [| reflexivity].
  destruct (h b) as [t'' o]. now rewrite app_assoc.
Qed.

(* ================================================================= *)
(** ** Strings *)

Lemma append_assoc (a b c : string) : (a +++ b) +++ c = a +++ b +++ c.
Proof.
  induction a as [| ch a IH]; simpl; [reflexivity | now rewrite IH].
Qed.

Lemma append_empty_r (a : string) : a +++ EmptyString = a.
Proof.
  induction a as [| ch a IH]; simpl; [reflexivity | now rewrite IH].
Qed.

Lemma mentions_itself (part : string) : mentions part part.
Proof.
  exists EmptyString, EmptyString. simpl. now rewrite append_empty_r.
Qed.

Lemma mentions_left (a b part : string) :
  mentions a part -> mentions (a +++ b) part.
Proof.
  intros (before & after & ->). exists before, (after +++ b).
  now rewrite !append_assoc.
Qed.

Lemma mentions_right (a b part : string) :
  mentions b part -> mentions (a +++ b) part.
Proof.
  intros (before & after & ->). exists (a +++ before), after.
  now rewrite !append_assoc.
Qed.

Lemma mentions_lines (ls : list string) (line part : string) :
  In line ls -> mentions line part -> mentions (lines ls) part.
Proof.
  unfold lines. intros Hin Hline.
  induction ls as [| x ls IH]; [contradiction |].
  destruct ls as [| y ls].
  - destruct Hin as [-> | []]. exact Hline.
  - change (String.concat nl (x :: y :: ls))
      with (x +++ nl +++ String.concat nl (y :: ls)).
    destruct Hin as [-> | Hin].
    + now apply mentions_left.
    + apply mentions_right, mentions_right. now apply IH.
Qed.

Lemma array_toString_single (x : string) : array_toString [x] = x.
Proof. reflexivity. Qed.

(** In a chronological list the first entry is the earliest. *)
Lemma earliest_of_chronological (first : string) (others : list string) :
  chronological (first :: others) ->
  chronologically_earliest (first :: others) = Some first.
Proof.
  unfold chronological. intros H. inversion H as [| ? ? _ Hall]; subst.
  simpl. f_equal. clear H.
  induction others as [| x others IH]; simpl; [reflexivity |].
  inversion Hall as [| ? ? Hx Hrest]; subst.
  unfold earlier at 2. rewrite Hx. now apply IH.
Qed.

(* ================================================================= *)
(** ** The status command: which branch answers *)

Section Status.
Context {styles : Chalk} {sdk : Sdk}.
Import MigrateStatus.

(** Case analysis on everything the dispatch of [report] looks at. *)
Ltac by_cases d l :=
  destruct d as [[] [| ? | ?] [| [[| ? ?] |]] [| ? ?] ?];
  destruct l as [[| ? ?]].

Lemma first_match_NoMigrationsTable (d : DiagnoseResult) :
  hasMigrationsTable d = false -> first_match d = NoMigrationsTable.
Proof.
  unfold first_match; simpl. now intros ->.
Qed.

Lemma report_answer (d : DiagnoseResult) (l : ListMigrationDirectoriesResult) :
  outcome (report d l) = answer (first_match d) d l.
Proof.
  by_cases d l; reflexivity.
Qed.

Lemma baselineAdvice_not_failedAdvice (a b : string) :
  baselineAdvice a <> failedAdvice b.
Proof.
  unfold baselineAdvice, failedAdvice, lines; simpl. discriminate.
Qed.

(** C1.  The status command answers with the first branch that applies, in
    the order: no migrations table, failed migrations, drift together with a
    history that is behind or diverged, up to date.  In particular, without a
    migrations table the answer is that of the no-migrations-table branch
    even when failed migrations are listed: the failed-migrations condition
    holds too, but its advice is not what is answered, and the run is the
    same as without any failed migration. *)
Theorem status_first_match_wins
    (d : DiagnoseResult) (l : ListMigrationDirectoriesResult) :
  outcome (report d l) = answer (first_match d) d l /\
  (hasMigrationsTable d = false -> failedMigrationNames d <> [] ->
     applies NoMigrationsTable d = true /\
     applies FailedMigrations d = true /\
     first_match d = NoMigrationsTable /\
     outcome (report d l) = answer NoMigrationsTable d l /\
     outcome (report d l) <> answer FailedMigrations d l /\
     report d l = report (with_failedMigrationNames d []) l).
Proof.
  split; [apply report_answer |].
  intros Htable Hfailed.
  rewrite report_answer, (first_match_NoMigrationsTable d Htable).
  by_cases d l; simpl in *; try discriminate; try congruence;
    repeat split; try reflexivity; try discriminate.
Qed.

(** The command line [prisma migrate resolve --applied "<id>"] inside the
    styled text the messages show. *)
Lemma failedAdvice_mentions_both (id : string) :
  mentions (failedAdvice id)
    (chalk_bold_greenBright
       (getCommandWithExecutor
          ("prisma migrate resolve --rolledback " +++ quoted id +++
           " --early-access-feature"))) /\
  mentions (failedAdvice id)
    (chalk_bold_greenBright
       (getCommandWithExecutor
          ("prisma migrate resolve --applied " +++ quoted id +++
           " --early-access-feature"))).
Proof.
  split; (eapply mentions_lines; [| apply mentions_itself]);
    unfold resolveRolledback, resolveApplied; simpl; tauto.
Qed.

(** C2, as the code has it.  With a migrations table and failed migrations,
    the advice names the first entry of [failedMigrationNames], in the order
    the list is passed in, in both the [resolve --rolledback] and the
    [resolve --applied] suggestion; that entry is the chronologically
    earliest one when the list is passed in chronological order. *)
Theorem status_failed_names_first_entry
    (d : DiagnoseResult) (l : ListMigrationDirectoriesResult)
    (first : string) (others : list string) :
  hasMigrationsTable d = true ->
  failedMigrationNames d = first :: others ->
  outcome (report d l) = Returned (failedAdvice first) /\
  mentions (failedAdvice first)
    (chalk_bold_greenBright
       (getCommandWithExecutor
          ("prisma migrate resolve --rolledback " +++ quoted first +++
           " --early-access-feature"))) /\
  mentions (failedAdvice first)
    (chalk_bold_greenBright
       (getCommandWithExecutor
          ("prisma migrate resolve --applied " +++ quoted first +++
           " --early-access-feature"))) /\
  (chronological (first :: others) ->
   chronologically_earliest (failedMigrationNames d) = Some first).
Proof.
  intros Htable Hfailed. split; [| split; [| split]].
  - by_cases d l; simpl in *; try discriminate;
      injection Hfailed as -> ->; reflexivity.
  - apply failedAdvice_mentions_both.
  - apply failedAdvice_mentions_both.
  - rewrite Hfailed. apply earliest_of_chronological.
Qed.

(** C3.  Without a migrations table and with at least one local migration,
    the status command returns the baselining message for the first entry of
    the directory listing, the oldest migration, and that message shows
    [resolve --applied] for it. *)
Theorem status_baselines_oldest
    (d : DiagnoseResult) (l : ListMigrationDirectoriesResult)
    (oldest : string) (newer : list string) :
  hasMigrationsTable d = false ->
  migrations l = oldest :: newer ->
  outcome (report d l) = Returned (baselineAdvice oldest) /\
  mentions (baselineAdvice oldest)
    (chalk_bold_greenBright
       (getCommandWithExecutor
          ("prisma migrate resolve --applied " +++ quoted oldest +++
           " --early-access-feature"))).
Proof.
  intros Htable Hlisting. split.
  - by_cases d l; simpl in *; try discriminate;
      injection Hlisting as -> ->; reflexivity.
  - eapply mentions_lines; [| apply mentions_itself].
    unfold resolveApplied; simpl; tauto.
Qed.

(** C4, as the code has it.  Without a migrations table and with an empty
    local directory, the status command returns no message: it throws
    [HowToBaselineError].  Before that it has printed the status header and
    the line about the empty directory, and the notice about unapplied
    migrations when the history is behind; none of them is a [resolve]
    suggestion. *)
Theorem status_cannot_baseline
    (d : DiagnoseResult) (l : ListMigrationDirectoriesResult) :
  hasMigrationsTable d = false ->
  migrations l = [] ->
  outcome (report d l) = Thrown HowToBaselineError /\
  trace (report d l) =
    ConsoleInfo (nl +++ "Status") ::
    ConsoleInfo ("No migration found in prisma/migrations" +++ nl) ::
    match history d with
    | databaseIsBehind unapplied => [ConsoleInfo (unappliedNotice unapplied)]
    | _ => []
    end.
Proof.
  intros Htable Hlisting.
  by_cases d l; simpl in *; try discriminate; split; reflexivity.
Qed.

(** The answer of the drift branch: the interpolated identifier is the whole
    list of unapplied migrations, joined with commas. *)
Lemma status_drift_answer
    (d : DiagnoseResult) (l : ListMigrationDirectoriesResult) :
  hasMigrationsTable d = true ->
  failedMigrationNames d = [] ->
  applies DriftWithHistory d = true ->
  outcome (report d l) =
    Returned (driftAdvice (rollback_of (drift d))
                (join "," (unappliedMigrationNames_of (history d)))).
Proof.
  intros Htable Hfailed Hdrift.
  by_cases d l; simpl in *; try discriminate; reflexivity.
Qed.

(** C8, as the code has it.  The status command returns a message whenever
    there is a migrations table or at least one local migration; without a
    migrations table and with no local migration it throws
    [HowToBaselineError], and that is the only error it throws. *)
Theorem status_returns_unless_cannot_baseline
    (d : DiagnoseResult) (l : ListMigrationDirectoriesResult) :
  (hasMigrationsTable d = true \/ migrations l <> [] ->
   exists message, outcome (report d l) = Returned message) /\
  (hasMigrationsTable d = false -> migrations l = [] ->
   outcome (report d l) = Thrown HowToBaselineError) /\
  (forall e, outcome (report d l) = Thrown e ->
   e = HowToBaselineError /\
   hasMigrationsTable d = false /\ migrations l = []).
Proof.
  rewrite report_answer. split; [| split].
  - intros H. by_cases d l; simpl in *; eauto;
      destruct H as [H | H]; try discriminate; congruence.
  - intros Htable Hlisting.
    rewrite (first_match_NoMigrationsTable d Htable). simpl.
    now rewrite Hlisting.
  - intros e H. by_cases d l; simpl in *; try discriminate;
      injection H as <-; auto.
Qed.

(** C10.  When the history is [databaseIsBehind], the notice that lists the
    unapplied migrations and the [migrate dev] and [migrate deploy] commands
    is the third thing printed, after the status header and the count of
    local migrations and before anything a branch prints; this holds for
    every value of the other fields, and the answer is still that of the
    first branch that applies. *)
Theorem status_unapplied_notice_comes_first
    (d : DiagnoseResult) (l : ListMigrationDirectoriesResult)
    (unapplied : list string) :
  history d = databaseIsBehind unapplied ->
  (exists found rest,
     trace (report d l) =
       ConsoleInfo (nl +++ "Status") :: ConsoleInfo found ::
       ConsoleInfo (unappliedNotice unapplied) :: rest) /\
  mentions (unappliedNotice unapplied) (join nl unapplied) /\
  mentions (unappliedNotice unapplied)
    (chalk_bold_greenBright
       (getCommandWithExecutor "prisma migrate dev --early-access-feature")) /\
  mentions (unappliedNotice unapplied)
    (chalk_bold_greenBright
       (getCommandWithExecutor "prisma migrate deploy --early-access-feature")) /\
  outcome (report d l) = answer (first_match d) d l.
Proof.
  intros Hhistory. split; [| split; [| split; [| split]]].
  - by_cases d l; simpl in *; try discriminate;
      injection Hhistory as ->; eexists; eexists; reflexivity.
  - eapply mentions_lines; [| apply mentions_itself]. simpl; tauto.
  - eapply mentions_lines.
    + right; right; right; left; reflexivity.
    + apply mentions_right, mentions_left, mentions_itself.
  - eapply mentions_lines.
    + right; right; right; right; left; reflexivity.
    + apply mentions_right, mentions_left, mentions_itself.
  - apply report_answer.
Qed.
End Status.

(* ================================================================= *)
(** ** The deploy command *)

Section Deploy.
Context {styles : Chalk} {sdk : Sdk}.
Import MigrateDeploy.

Lemma deploy_outcome
    (m : Migrate) (d : DiagnoseResult) (l : ListMigrationDirectoriesResult) :
  outcome (deploy m d l) = deployed (applyMigrations m).
Proof.
  destruct m as [? ? [[[| ? ?]] | ?]], d as [? ? ? ? [| ? ?]], l as [[| ? ?]];
    reflexivity.
Qed.

Lemma deploy_calls_applyMigrations_once
    (m : Migrate) (d : DiagnoseResult) (l : ListMigrationDirectoriesResult) :
  applyMigrations_calls (trace (deploy m d l)) = 1.
Proof.
  destruct m as [? ? [[[| ? ?]] | ?]], d as [? ? ? ? [| ? ?]], l as [[| ? ?]];
    reflexivity.
Qed.

(** The diagnosis reaches the deploy command through its list of edited
    migrations only. *)
Lemma deploy_reads_edited_only
    (m : Migrate) (d d' : DiagnoseResult) (l : ListMigrationDirectoriesResult) :
  editedMigrationNames d = editedMigrationNames d' ->
  deploy m d l = deploy m d' l.
Proof.
  unfold deploy. now intros ->.
Qed.

(** C7, as the code has it.  The deploy command calls [applyMigrations]
    exactly once for every diagnosis, whatever its failed migrations, history
    and drift are; it raises no error of its own on the diagnosis, and it
    throws only what [applyMigrations] throws. *)
Theorem deploy_applies_for_every_diagnosis
    (m : Migrate) (d : DiagnoseResult) (l : ListMigrationDirectoriesResult) :
  applyMigrations_calls (trace (deploy m d l)) = 1 /\
  outcome (deploy m d l) = deployed (applyMigrations m) /\
  deploy m d l =
    deploy m (mkDiagnoseResult true inSync noDrift [] (editedMigrationNames d)) l.
Proof.
  split; [apply deploy_calls_applyMigrations_once |].
  split; [apply deploy_outcome |].
  now apply deploy_reads_edited_only.
Qed.

(** C9.  When the diagnosis lists edited migrations, the deploy command
    prints a warning that lists exactly those identifiers, one per line, and
    calls [applyMigrations] right after it, for every value of the other
    fields of the diagnosis; the warning changes nothing of the call or of
    the answer, which are those of the same diagnosis without edited
    migrations. *)
Theorem deploy_warns_about_edited_then_applies
    (m : Migrate) (d : DiagnoseResult) (l : ListMigrationDirectoriesResult) :
  editedMigrationNames d <> [] ->
  (exists found rest,
     trace (deploy m d l) =
       ConsoleInfo EmptyString :: ConsoleInfo found ::
       ConsoleInfo (editedWarning (editedMigrationNames d)) ::
       ApplyMigrations :: rest) /\
  editedWarning (editedMigrationNames d) =
    chalk_yellow
      "WARNING The following migrations have been modified since they were applied:"
    +++ nl +++ join nl (editedMigrationNames d) /\
  applyMigrations_calls (trace (deploy m d l)) = 1 /\
  outcome (deploy m d l) = deployed (applyMigrations m) /\
  outcome (deploy m d l) =
    outcome (deploy m (with_editedMigrationNames d []) l).
Proof.
  intros Hedited. split; [| split; [| split; [| split]]].
  - destruct m as [? ? [[[| ? ?]] | ?]], d as [? ? ? ? [| ? ?]], l as [[| ? ?]];
      simpl in *; try congruence; eexists; eexists; reflexivity.
  - reflexivity.
  - apply deploy_calls_applyMigrations_once.
  - apply deploy_outcome.
  - now rewrite !deploy_outcome.
Qed.

(** C6, as the code has it.  With history [inSync] and drift [noDrift], the
    status command returns the up-to-date report when there is a migrations
    table and no failed migration; and the deploy command reports an empty
    [appliedMigrationNames] as no pending migrations, not as an error. *)
Theorem in_sync_is_up_to_date_and_nothing_pending
    (m : Migrate) (d : DiagnoseResult) (l : ListMigrationDirectoriesResult) :
  history d = inSync ->
  drift d = noDrift ->
  hasMigrationsTable d = true ->
  failedMigrationNames d = [] ->
  outcome (MigrateStatus.report d l) = Returned MigrateStatus.upToDate /\
  (forall applied,
     applyMigrations m = Returned applied ->
     appliedMigrationNames applied = [] ->
     outcome (deploy m d l) =
       Returned (chalk_greenBright "No pending migrations to apply.")).
Proof.
  intros Hhistory Hdrift Htable Hfailed. split.
  - destruct d as [? ? ? ? ?], l as [[| ? ?]]; simpl in *; subst; reflexivity.
  - intros applied Hresult Hnone.
    rewrite deploy_outcome, Hresult. simpl. now rewrite Hnone.
Qed.
End Deploy.

(* ================================================================= *)
(** ** From the command line to the diagnosis *)

Section Parse.
Context {styles : Chalk} {sdk : Sdk}.

(** [MigrateStatus.parse] ends with [report] on what the engine
    delivered. *)
Lemma status_parse_reports (env : Environment) (schemaPath : string)
    (d : DiagnoseResult) (l : ListMigrationDirectoriesResult) :
  reaches_diagnosis env schemaPath d l ->
  exists before,
    trace (MigrateStatus.parse env) =
      before ++ trace (MigrateStatus.report d l) /\
    outcome (MigrateStatus.parse env) =
      as_reply (outcome (MigrateStatus.report d l)).
Proof.
  intros (args & c & rest & created & Harg & Hhelp & Hexp & Hearly & Hpath &
          Hnonempty & Hupgrade & Hconnect & _ & Hdiagnose & Hlist).
  unfold MigrateStatus.parse.
  rewrite Harg, Hhelp, Hexp, Hearly, Hpath. subst schemaPath.
  cbn [truthy negb coerce]. rewrite Hupgrade, Hconnect, Hdiagnose, Hlist.
  refine (ex_intro _ [ConsoleInfo _; ConsoleInfo _; DiagnoseMigrationHistory;
                      ListMigrationDirectories; Stop] _).
  unfold await, call, emit, console_info; cbn [bind].
  destruct (MigrateStatus.report d l) as [t [text | e]]; simpl;
    rewrite ?app_nil_r; split; reflexivity.
Qed.

(** [MigrateDeploy.parse] ends with [deploy] on what the engine
    delivered. *)
Lemma deploy_parse_deploys (env : Environment) (schemaPath : string)
    (d : DiagnoseResult) (l : ListMigrationDirectoriesResult) :
  reaches_diagnosis env schemaPath d l ->
  exists before,
    trace (MigrateDeploy.parse env) =
      before ++ trace (MigrateDeploy.deploy (new_Migrate env schemaPath) d l) /\
    outcome (MigrateDeploy.parse env) =
      as_reply
        (outcome (MigrateDeploy.deploy (new_Migrate env schemaPath) d l)).
Proof.
  intros (args & c & rest & created & Harg & Hhelp & Hexp & Hearly & Hpath &
          Hnonempty & Hupgrade & _ & Hcreated & Hdiagnose & Hlist).
  unfold MigrateDeploy.parse.
  rewrite Harg, Hhelp, Hexp, Hearly, Hpath. subst schemaPath.
  cbn [truthy negb coerce]. rewrite Hupgrade, Hcreated, Hdiagnose, Hlist.
  refine (ex_intro _
            (ConsoleInfo _ :: ConsoleInfo _ ::
             (if truthy created
              then [ConsoleInfo EmptyString; ConsoleInfo (coerce created)]
              else []) ++
             [DiagnoseMigrationHistory; ListMigrationDirectories]) _).
  unfold await, call, emit, console_info, when; cbn [bind].
  destruct created as [[| ? ?] |]; cbn [truthy bind ret];
    destruct (MigrateDeploy.deploy (new_Migrate env (String c rest)) d l)
      as [t [text | e]]; simpl;
    rewrite ?app_nil_r; split; reflexivity.
Qed.
End Parse.

(* ================================================================= *)
(** ** Runs on a plain terminal *)

Section PlainTerminal.
#[local] Existing Instance plainChalk.
#[local] Existing Instance npxSdk.
Import MigrateStatus MigrateDeploy.

Lemma returned_neq (a b : string) :
  (a =? b)%string = false -> Returned a <> Returned b.
Proof.
  intros H E. injection E as E. now apply String.eqb_neq in H.
Qed.

Lemma sample_environment_reaches :
  reaches_diagnosis (sample_environment applying_engine)
    "prisma/schema.prisma" broken two_migrations.
Proof.
  unfold reaches_diagnosis.
  do 4 eexists. repeat split; reflexivity.
Qed.

Lemma status_first_match_wins_witness :
  first_match unmanaged_with_failure = NoMigrationsTable /\
  outcome (report unmanaged_with_failure two_migrations) =
    Returned (baselineAdvice init_migration) /\
  report unmanaged_with_failure two_migrations =
    report (with_failedMigrationNames unmanaged_with_failure []) two_migrations.
Proof.
  destruct (status_first_match_wins unmanaged_with_failure two_migrations)
    as [_ H].
  destruct H as (_ & _ & Hfirst & Hanswer & _ & Hsame);
    [reflexivity | discriminate |].
  repeat split; assumption.
Defined.

(** C2 as stated fails: the list names the later migration first, and the
    advice names that one, not the chronologically earliest. *)
Lemma status_failed_not_earliest :
  hasMigrationsTable failed_out_of_order = true /\
  failedMigrationNames failed_out_of_order = [index_migration; init_migration] /\
  chronologically_earliest (failedMigrationNames failed_out_of_order) =
    Some init_migration /\
  outcome (report failed_out_of_order two_migrations) =
    Returned (failedAdvice index_migration) /\
  outcome (report failed_out_of_order two_migrations) <>
    Returned (failedAdvice init_migration).
Proof.
  repeat split; try reflexivity.
  apply returned_neq. vm_compute. reflexivity.
Qed.

Lemma status_failed_names_first_entry_witness :
  outcome (report failed_in_order two_migrations) =
    Returned (failedAdvice init_migration) /\
  chronologically_earliest (failedMigrationNames failed_in_order) =
    Some init_migration.
Proof.
  destruct (status_failed_names_first_entry failed_in_order two_migrations
              init_migration [index_migration] eq_refl eq_refl)
    as (Hanswer & _ & _ & Hearliest).
  split; [exact Hanswer |].
  apply Hearliest. unfold chronological.
  repeat constructor.
Defined.

Lemma status_baselines_oldest_witness :
  outcome (report unmanaged two_migrations) =
    Returned (baselineAdvice init_migration).
Proof.
  apply (status_baselines_oldest unmanaged two_migrations
           init_migration [index_migration]); reflexivity.
Defined.

(** C4 as stated fails: with no migrations table and no local migration the
    status command returns nothing; it throws. *)
Lemma status_cannot_baseline_throws :
  hasMigrationsTable unmanaged = false /\
  migrations no_migrations = [] /\
  outcome (report unmanaged no_migrations) = Thrown HowToBaselineError /\
  ~ (exists plan, outcome (report unmanaged no_migrations) = Returned plan).
Proof.
  repeat split. intros [plan H]. discriminate H.
Qed.

Lemma status_cannot_baseline_witness :
  outcome (report unmanaged_with_failure no_migrations) =
    Thrown HowToBaselineError /\
  trace (report unmanaged_with_failure no_migrations) =
    [ConsoleInfo (nl +++ "Status");
     ConsoleInfo ("No migration found in prisma/migrations" +++ nl);
     ConsoleInfo (unappliedNotice [index_migration])].
Proof.
  apply (status_cannot_baseline unmanaged_with_failure no_migrations);
    reflexivity.
Defined.

(** C5 on the code.  With drift and two unapplied migrations the suggested
    command is [resolve --applied "20201201120000_init,20201202120000_add_index"]:
    it names the whole list joined with commas, not the first unapplied
    migration. *)
Theorem status_drift_names_whole_list :
  hasMigrationsTable drifted_behind = true /\
  failedMigrationNames drifted_behind = [] /\
  history drifted_behind =
    databaseIsBehind [init_migration; index_migration] /\
  outcome (report drifted_behind two_migrations) =
    Returned (driftAdvice (Some "DROP TABLE users;")
                "20201201120000_init,20201202120000_add_index") /\
  mentions (driftAdvice (Some "DROP TABLE users;")
              "20201201120000_init,20201202120000_add_index")
    ("npx prisma migrate resolve --applied " +++
     quoted "20201201120000_init,20201202120000_add_index" +++
     " --early-access-feature") /\
  outcome (report drifted_behind two_migrations) <>
    Returned (driftAdvice (Some "DROP TABLE users;") init_migration).
Proof.
  repeat split; try reflexivity.
  - eapply mentions_lines.
    + do 11 right. left. reflexivity.
    + apply mentions_right, mentions_left, mentions_itself.
  - apply returned_neq. vm_compute. reflexivity.
Qed.

(** C6 as stated fails: with history [inSync] and drift [noDrift] the status
    command still advises on a failed migration, and without a migrations
    table it throws. *)
Lemma status_in_sync_not_up_to_date :
  history in_sync_with_failure = inSync /\
  drift in_sync_with_failure = noDrift /\
  outcome (report in_sync_with_failure two_migrations) =
    Returned (failedAdvice init_migration) /\
  outcome (report in_sync_with_failure two_migrations) <> Returned upToDate /\
  history unmanaged = inSync /\
  drift unmanaged = noDrift /\
  outcome (report unmanaged no_migrations) <> Returned upToDate.
Proof.
  repeat split; try reflexivity; discriminate.
Qed.

Lemma in_sync_is_up_to_date_and_nothing_pending_witness :
  outcome (report all_applied two_migrations) = Returned upToDate /\
  outcome (deploy idle_engine all_applied two_migrations) =
    Returned "No pending migrations to apply.".
Proof.
  destruct (in_sync_is_up_to_date_and_nothing_pending idle_engine all_applied
              two_migrations eq_refl eq_refl eq_refl eq_refl)
    as [Hstatus Hdeploy].
  split; [exact Hstatus |].
  exact (Hdeploy (mkApplied []) eq_refl eq_refl).
Defined.

(** C7 as stated fails: on a diagnosis with a failed migration, diverged
    histories and drift, the deploy command calls [applyMigrations] and
    returns its report. *)
Lemma deploy_applies_on_broken_history :
  failedMigrationNames broken = [init_migration] /\
  history broken = historiesDiverge [index_migration] /\
  drift broken = driftDetected None /\
  In ApplyMigrations (trace (deploy applying_engine broken two_migrations)) /\
  outcome (deploy applying_engine broken two_migrations) =
    Returned (appliedReport [index_migration]).
Proof.
  repeat split. simpl. tauto.
Qed.

(** C8 as stated fails: the status command throws on a well-formed
    diagnosis. *)
Lemma status_throws_without_table_and_migrations :
  outcome (report unmanaged_with_failure no_migrations) =
    Thrown HowToBaselineError /\
  forall message,
    outcome (report unmanaged_with_failure no_migrations) <> Returned message.
Proof.
  split; [reflexivity | discriminate].
Qed.

Lemma status_returns_unless_cannot_baseline_witness :
  (exists message,
     outcome (report unmanaged two_migrations) = Returned message) /\
  outcome (report unmanaged no_migrations) = Thrown HowToBaselineError.
Proof.
  split.
  - apply (status_returns_unless_cannot_baseline unmanaged two_migrations).
    right. discriminate.
  - apply (status_returns_unless_cannot_baseline unmanaged no_migrations);
      reflexivity.
Defined.

Lemma deploy_warns_about_edited_then_applies_witness :
  editedMigrationNames broken <> [] /\
  outcome (deploy applying_engine broken two_migrations) =
    outcome (deploy applying_engine (with_editedMigrationNames broken [])
               two_migrations).
Proof.
  split; [discriminate |].
  apply (deploy_warns_about_edited_then_applies applying_engine broken
           two_migrations).
  discriminate.
Defined.

Lemma status_unapplied_notice_comes_first_witness :
  history unmanaged_with_failure = databaseIsBehind [index_migration] /\
  exists found rest,
    trace (report unmanaged_with_failure two_migrations) =
      ConsoleInfo (nl +++ "Status") :: ConsoleInfo found ::
      ConsoleInfo (unappliedNotice [index_migration]) :: rest.
Proof.
  split; [reflexivity |].
  apply (status_unapplied_notice_comes_first unmanaged_with_failure
           two_migrations [index_migration]).
  reflexivity.
Defined.
End PlainTerminal.

(* ================================================================= *)
(** ** The command line *)

Lemma trace_bind {A B} (m : Run A) (k : A -> Run B) :
  trace (bind m k) =
    trace m ++ match outcome m with
               | Returned a => trace (k a)
               | Thrown _ => []
               end.
Proof.
  destruct m as [t [a | e]]; simpl.
  - destruct (k a); reflexivity.
  - now rewrite app_nil_r.
Qed.

Lemma outcome_bind {A B} (m : Run A) (k : A -> Run B) :
  outcome (bind m k) =
    match outcome m with
    | Returned a => outcome (k a)
    | Thrown e => Thrown e
    end.
Proof.
  destruct m as [t [a | e]]; simpl; [destruct (k a) |]; reflexivity.
Qed.

Lemma engine_calls_app (a b : list Event) :
  engine_calls (a ++ b) = engine_calls a ++ engine_calls b.
Proof. apply filter_app. Qed.

Section CommandLine.
Context {styles : Chalk} {sdk : Sdk}.

(** X1.  Neither command prints anything or calls the engine unless the
    command line parsed, asked for no help, did not pass [--experimental],
    passed [--early-access-feature], and a schema was found. *)
Theorem parse_silent_unless_opted_in (env : Environment) :
  trace (MigrateStatus.parse env) <> [] \/ trace (MigrateDeploy.parse env) <> [] ->
  exists args,
    arg env = inl args /\
    flag_help args = false /\
    flag_experimental args = false /\
    flag_early_access_feature args = true /\
    truthy (getSchemaPath env (flag_schema args)) = true.
Proof.
  unfold MigrateStatus.parse, MigrateDeploy.parse.
  destruct (arg env) as [args | message]; [| simpl; intros [H | H]; congruence].
  destruct (flag_help args) eqn:Hhelp; [simpl; intros [H | H]; congruence |].
  destruct (flag_experimental args) eqn:Hexperimental;
    [simpl; intros [H | H]; congruence |].
  destruct (flag_early_access_feature args) eqn:Hearly;
    [| simpl; intros [H | H]; congruence].
  destruct (truthy (getSchemaPath env (flag_schema args))) eqn:Hschema;
    [| simpl; intros [H | H]; congruence].
  intros _. exists args. repeat split; assumption.
Qed.


(** X3.  A command line that does not parse is answered, not thrown: nothing
    is printed and the engine is not called; the answer is a [HelpError] that
    shows the parser's message and the help text, or the plain help text when
    the message is empty. *)
Theorem usage_error_returns_help (env : Environment) (message : string) :
  arg env = inr message ->
  trace (MigrateStatus.parse env) = [] /\
  trace (MigrateDeploy.parse env) = [] /\
  (message = EmptyString ->
   outcome (MigrateStatus.parse env) =
     Returned (Message MigrateStatus.help_text) /\
   outcome (MigrateDeploy.parse env) =
     Returned (Message MigrateDeploy.help_text)) /\
  (message <> EmptyString ->
   exists status_text deploy_text,
     outcome (MigrateStatus.parse env) = Returned (HelpError status_text) /\
     outcome (MigrateDeploy.parse env) = Returned (HelpError deploy_text) /\
     mentions status_text message /\
     mentions status_text MigrateStatus.help_text /\
     mentions deploy_text message /\
     mentions deploy_text MigrateDeploy.help_text).
Proof.
  intros Harg. unfold MigrateStatus.parse, MigrateDeploy.parse. rewrite Harg.
  split; [reflexivity |]. split; [reflexivity |]. split.
  - intros ->. split; reflexivity.
  - intros Hmessage. destruct message as [| c rest]; [congruence |].
    unfold MigrateStatus.help, MigrateDeploy.help. cbn [truthy coerce].
    do 2 eexists. split; [reflexivity |]. split; [reflexivity |].
    repeat split.
    + do 3 apply mentions_right. apply mentions_left, mentions_itself.
    + do 5 apply mentions_right. apply mentions_itself.
    + do 3 apply mentions_right. apply mentions_left, mentions_itself.
    + do 5 apply mentions_right. apply mentions_itself.
Qed.
End CommandLine.

(* ================================================================= *)
(** ** The calls to the engine *)

Section Engine.
Context {styles : Chalk} {sdk : Sdk}.

Lemma report_calls_no_engine
    (d : DiagnoseResult) (l : ListMigrationDirectoriesResult) :
  engine_calls (trace (MigrateStatus.report d l)) = [].
Proof.
  destruct d as [[] [| ? | ?] [| [[| ? ?] |]] [| ? ?] ?], l as [[| ? ?]];
    reflexivity.
Qed.

Lemma deploy_engine_calls
    (m : Migrate) (d : DiagnoseResult) (l : ListMigrationDirectoriesResult) :
  engine_calls (trace (MigrateDeploy.deploy m d l)) =
    ApplyMigrations ::
    match applyMigrations m with
    | Returned _ => [Stop]
    | Thrown _ => []
    end.
Proof.
  destruct m as [? ? [[[| ? ?]] | ?]], d as [? ? ? ? [| ? ?]], l as [[| ? ?]];
    reflexivity.
Qed.

(** Splits a computed trace in front of its call to [applyMigrations]. *)
Ltac before_applying :=
  simpl;
  match goal with
  | |- exists _, ?x :: ?y :: ?z :: ApplyMigrations :: _ = _ => exists [x; y; z]
  | |- exists _, ?x :: ?y :: ApplyMigrations :: _ = _ => exists [x; y]
  end;
  reflexivity.

(** X4.  The status command talks to the engine in one order only: the
    diagnosis, then the directory listing, then [stop]; a run may end early
    but never calls out of order, and it never calls [applyMigrations]. *)
Theorem status_engine_protocol (env : Environment) :
  prefix_of (engine_calls (trace (MigrateStatus.parse env)))
    [DiagnoseMigrationHistory; ListMigrationDirectories; Stop] /\
  applyMigrations_calls (trace (MigrateStatus.parse env)) = 0.
Proof.
  unfold MigrateStatus.parse.
  destruct (arg env) as [args | message];
    [| split; [eexists; reflexivity | reflexivity]].
  destruct (flag_help args); [split; [eexists; reflexivity | reflexivity] |].
  destruct (flag_experimental args);
    [split; [eexists; reflexivity | reflexivity] |].
  destruct (flag_early_access_feature args);
    [| split; [eexists; reflexivity | reflexivity]].
  destruct (getSchemaPath env (flag_schema args)) as [[| c rest] |];
    cbn [truthy negb coerce]; try (split; [eexists; reflexivity | reflexivity]).
  destruct (throwUpgradeErrorIfOldMigrate env (String c rest)) as [[] | e];
    [| split; [eexists; reflexivity | reflexivity]].
  destruct (ensureCanConnectToDatabase env (String c rest)) as [[] | e];
    [| split; [eexists; reflexivity | reflexivity]].
  destruct (new_Migrate env (String c rest)) as [[d | e] listing applying];
    [| split; [eexists; reflexivity | reflexivity]].
  destruct listing as [l | e]; [| split; [eexists; reflexivity | reflexivity]].
  unfold await, call, emit, console_info; cbn [bind diagnoseMigrationHistory
    listMigrationDirectories].
  pose proof (report_calls_no_engine d l) as Hreport.
  assert (Hnone : applyMigrations_calls (trace (MigrateStatus.report d l)) = 0).
  { destruct d as [[] [| ? | ?] [| [[| ? ?] |]] [| ? ?] ?], l as [[| ? ?]];
      reflexivity. }
  destruct (MigrateStatus.report d l) as [t [text | e]]; simpl in *;
    rewrite ?app_nil_r, Hreport; (split; [exists []; reflexivity | exact Hnone]).
Qed.

(** X5.  The deploy command talks to the engine in one order only: the
    diagnosis, then the directory listing, then [applyMigrations], then
    [stop].  So it never applies before both the diagnosis and the listing
    have come back, and never applies twice. *)
Theorem deploy_engine_protocol (env : Environment) :
  prefix_of (engine_calls (trace (MigrateDeploy.parse env)))
    [DiagnoseMigrationHistory; ListMigrationDirectories; ApplyMigrations; Stop].
Proof.
  unfold MigrateDeploy.parse.
  destruct (arg env) as [args | message]; [| eexists; reflexivity].
  destruct (flag_help args); [eexists; reflexivity |].
  destruct (flag_experimental args); [eexists; reflexivity |].
  destruct (flag_early_access_feature args); [| eexists; reflexivity].
  destruct (getSchemaPath env (flag_schema args)) as [[| c rest] |];
    cbn [truthy negb coerce]; try (eexists; reflexivity).
  destruct (throwUpgradeErrorIfOldMigrate env (String c rest)) as [[] | e];
    [| eexists; reflexivity].
  destruct (ensureDatabaseExists env (String c rest)) as [created | e];
    [| eexists; reflexivity].
  pose proof (deploy_engine_calls (new_Migrate env (String c rest))) as Hdeploy.
  destruct (new_Migrate env (String c rest)) as [[d | e] listing applying];
    [| destruct created as [[| ? ?] |]; eexists; reflexivity].
  destruct listing as [l | e];
    [| destruct created as [[| ? ?] |]; eexists; reflexivity].
  specialize (Hdeploy d l).
  unfold await, call, emit, console_info, when;
    cbn [bind diagnoseMigrationHistory listMigrationDirectories].
  destruct (MigrateDeploy.deploy _ d l) as [t [text | e]];
    destruct created as [[| ? ?] |]; simpl in *;
    rewrite ?app_nil_r, Hdeploy; destruct applying; eexists; reflexivity.
Qed.

(** X6.  The deploy command stops the engine only after [applyMigrations] has
    come back: when that call throws, the error is passed on as it is,
    nothing more is printed and [stop] is not called. *)
Theorem deploy_stops_only_after_applying
    (m : Migrate) (d : DiagnoseResult) (l : ListMigrationDirectoriesResult) :
  engine_calls (trace (MigrateDeploy.deploy m d l)) =
    ApplyMigrations ::
    match applyMigrations m with
    | Returned _ => [Stop]
    | Thrown _ => []
    end /\
  (forall e, applyMigrations m = Thrown e ->
   outcome (MigrateDeploy.deploy m d l) = Thrown e /\
   exists before,
     trace (MigrateDeploy.deploy m d l) = before ++ [ApplyMigrations]) /\
  (forall applied, applyMigrations m = Returned applied ->
   exists before,
     trace (MigrateDeploy.deploy m d l) =
       before ++ [ApplyMigrations; Stop; ConsoleInfo EmptyString]).
Proof.
  split; [apply deploy_engine_calls |]. split.
  - intros e Happly.
    destruct m as [? ? applying], d as [? ? ? ? [| ? ?]], l as [[| ? ?]];
      simpl in Happly; subst applying;
      (split; [reflexivity | before_applying]).
  - intros applied Happly.
    destruct m as [? ? applying], d as [? ? ? ? [| ? ?]], l as [[| ? ?]];
      simpl in Happly; subst applying; destruct applied as [[| ? ?]];
      before_applying.
Qed.
End Engine.

(* ================================================================= *)
(** ** Failures on the way to the diagnosis *)

Section Failures.
Context {styles : Chalk} {sdk : Sdk}.

(** X7.  When a check that precedes the engine throws, the error is passed on
    as it is and the engine is never called: the upgrade check for both
    commands, the connection check for the status command, the creation of the
    database for the deploy command. *)
Theorem failed_checks_leave_engine_alone
    (env : Environment) (schemaPath : string) (e : Error) :
  opted_in env schemaPath ->
  (throwUpgradeErrorIfOldMigrate env schemaPath = Thrown e ->
   outcome (MigrateStatus.parse env) = Thrown e /\
   engine_calls (trace (MigrateStatus.parse env)) = [] /\
   outcome (MigrateDeploy.parse env) = Thrown e /\
   engine_calls (trace (MigrateDeploy.parse env)) = []) /\
  (throwUpgradeErrorIfOldMigrate env schemaPath = Returned tt ->
   ensureCanConnectToDatabase env schemaPath = Thrown e ->
   outcome (MigrateStatus.parse env) = Thrown e /\
   engine_calls (trace (MigrateStatus.parse env)) = []) /\
  (throwUpgradeErrorIfOldMigrate env schemaPath = Returned tt ->
   ensureDatabaseExists env schemaPath = Thrown e ->
   outcome (MigrateDeploy.parse env) = Thrown e /\
   engine_calls (trace (MigrateDeploy.parse env)) = []).
Proof.
  intros (args & c & rest & Harg & Hhelp & Hexp & Hearly & Hpath & ->).
  unfold MigrateStatus.parse, MigrateDeploy.parse.
  rewrite Harg, Hhelp, Hexp, Hearly, Hpath. cbn [truthy negb coerce].
  split; [| split].
  - intros ->. repeat split; reflexivity.
  - intros -> ->. repeat split; reflexivity.
  - intros -> ->. repeat split; reflexivity.
Qed.

(** X8.  When the engine fails to diagnose or to list the migrations, both
    commands pass the error on as it is.  The status command then does not
    call [stop], and the deploy command neither applies nor stops. *)
Theorem engine_failure_is_passed_on
    (env : Environment) (schemaPath : string) (e : Error) :
  opted_in env schemaPath ->
  throwUpgradeErrorIfOldMigrate env schemaPath = Returned tt ->
  ensureCanConnectToDatabase env schemaPath = Returned tt ->
  (exists created, ensureDatabaseExists env schemaPath = Returned created) ->
  (diagnoseMigrationHistory (new_Migrate env schemaPath) = Thrown e ->
   outcome (MigrateStatus.parse env) = Thrown e /\
   engine_calls (trace (MigrateStatus.parse env)) =
     [DiagnoseMigrationHistory] /\
   outcome (MigrateDeploy.parse env) = Thrown e /\
   engine_calls (trace (MigrateDeploy.parse env)) =
     [DiagnoseMigrationHistory]) /\
  (forall d,
   diagnoseMigrationHistory (new_Migrate env schemaPath) = Returned d ->
   listMigrationDirectories (new_Migrate env schemaPath) = Thrown e ->
   outcome (MigrateStatus.parse env) = Thrown e /\
   engine_calls (trace (MigrateStatus.parse env)) =
     [DiagnoseMigrationHistory; ListMigrationDirectories] /\
   outcome (MigrateDeploy.parse env) = Thrown e /\
   engine_calls (trace (MigrateDeploy.parse env)) =
     [DiagnoseMigrationHistory; ListMigrationDirectories]).
Proof.
  intros (args & c & rest & Harg & Hhelp & Hexp & Hearly & Hpath & ->)
         Hupgrade Hconnect [created Hcreated].
  unfold MigrateStatus.parse, MigrateDeploy.parse.
  rewrite Harg, Hhelp, Hexp, Hearly, Hpath. cbn [truthy negb coerce].
  rewrite Hupgrade, Hconnect, Hcreated.
  split.
  - intros ->. destruct created as [[| ? ?] |]; repeat split; reflexivity.
  - intros d -> ->. destruct created as [[| ? ?] |]; repeat split; reflexivity.
Qed.

(** X9.  Once the diagnosis and the listing have come back, the status
    command stops the engine before it prints the status or decides on its
    answer; so the engine has been stopped also when the answer is a thrown
    [HowToBaselineError]. *)
Theorem status_stops_engine_before_reporting
    (env : Environment) (schemaPath : string)
    (d : DiagnoseResult) (l : ListMigrationDirectoriesResult) :
  reaches_diagnosis env schemaPath d l ->
  (exists loaded datasource,
     trace (MigrateStatus.parse env) =
       [ConsoleInfo loaded; ConsoleInfo datasource; DiagnoseMigrationHistory;
        ListMigrationDirectories; Stop] ++
       trace (MigrateStatus.report d l)) /\
  outcome (MigrateStatus.parse env) =
    as_reply (outcome (MigrateStatus.report d l)).
Proof.
  intros (args & c & rest & created & Harg & Hhelp & Hexp & Hearly & Hpath &
          Hnonempty & Hupgrade & Hconnect & _ & Hdiagnose & Hlist).
  unfold MigrateStatus.parse.
  rewrite Harg, Hhelp, Hexp, Hearly, Hpath. subst schemaPath.
  cbn [truthy negb coerce]. rewrite Hupgrade, Hconnect, Hdiagnose, Hlist.
  unfold await, call, emit, console_info; cbn [bind].
  destruct (MigrateStatus.report d l) as [t [text | e]]; simpl;
    rewrite ?app_nil_r; (split; [do 2 eexists |]; reflexivity).
Qed.

(** X10.  When the deploy command had to create the database, it prints an
    empty line and the message about the creation before it asks the engine
    for the diagnosis; when nothing was created it prints nothing there. *)
Theorem deploy_announces_created_database
    (env : Environment) (schemaPath : string) (created : option string) :
  opted_in env schemaPath ->
  throwUpgradeErrorIfOldMigrate env schemaPath = Returned tt ->
  ensureDatabaseExists env schemaPath = Returned created ->
  exists loaded datasource rest,
    trace (MigrateDeploy.parse env) =
      ConsoleInfo loaded :: ConsoleInfo datasource ::
      (if truthy created
       then [ConsoleInfo EmptyString; ConsoleInfo (coerce created)]
       else []) ++
      DiagnoseMigrationHistory :: rest.
Proof.
  intros (args & c & rest & Harg & Hhelp & Hexp & Hearly & Hpath & ->)
         Hupgrade Hcreated.
  unfold MigrateDeploy.parse.
  rewrite Harg, Hhelp, Hexp, Hearly, Hpath. cbn [truthy negb coerce].
  rewrite Hupgrade, Hcreated.
  unfold await, call, emit, console_info, when.
  destruct (new_Migrate env (String c rest))
    as [[d | e] [l | e'] applying] eqn:Hmigrate;
    cbn [bind diagnoseMigrationHistory listMigrationDirectories];
    destruct created as [[| ? ?] |]; cbn [truthy bind ret];
    try (destruct (MigrateDeploy.deploy _ d l) as [t [text | e'']]);
    simpl; do 3 eexists; reflexivity.
Qed.
End Failures.

(* ================================================================= *)
(** ** More on the answers of the status command *)

Section StatusAnswers.
Context {styles : Chalk} {sdk : Sdk}.
Import MigrateStatus.

(** X11.  The status command answers that the database schema is up to date
    exactly when there is a migrations table, no failed migration, and not
    both a drift and a history that is behind or diverged.  So a database
    that is behind, or whose history diverged, without drift is reported up to
    date, and so is a drifted database whose history is in sync. *)
Theorem status_up_to_date_iff
    (d : DiagnoseResult) (l : ListMigrationDirectoriesResult) :
  outcome (report d l) = Returned upToDate <->
  hasMigrationsTable d = true /\
  failedMigrationNames d = [] /\
  applies DriftWithHistory d = false.
Proof.
  rewrite report_answer. unfold first_match.
  destruct d as [[] [| ? | ?] [| [[| ? ?] |]] [| ? ?] ?], l as [[| ? ?]];
    simpl; split;
    try (intros H; discriminate H);
    try (intros (H1 & H2 & H3); discriminate);
    try (intros _; repeat split; reflexivity).
Qed.

(** X12.  In the failed-migrations case the status command prints, last of
    all, the list of every failed migration, one per line, and after it the
    rollback script exactly when a drift was detected and the engine delivered
    a non-empty script. *)
Theorem status_failed_branch_output
    (d : DiagnoseResult) (l : ListMigrationDirectoriesResult) :
  hasMigrationsTable d = true ->
  failedMigrationNames d <> [] ->
  (exists before,
     trace (report d l) =
       before ++
       ConsoleInfo (failedNotice (failedMigrationNames d)) ::
       (if is_driftDetected (drift d) && truthy (rollback_of (drift d))
        then [ConsoleInfo (rollbackNotice (rollback_of (drift d)))]
        else [])) /\
  mentions (failedNotice (failedMigrationNames d))
    (join nl (failedMigrationNames d)) /\
  (forall script,
     drift d = driftDetected (Some script) ->
     script <> EmptyString ->
     mentions (rollbackNotice (rollback_of (drift d))) (chalk_grey script)).
Proof.
  intros Htable Hfailed. split; [| split].
  - destruct d as [[] [| ? | ?] [| [[| ? ?] |]] [| ? ?] ?], l as [[| ? ?]];
      simpl in *; try discriminate; try congruence;
      match goal with
      | |- exists _, ?x :: ?y :: ?z :: _ = _ =>
          first [ exists [x; y]; reflexivity | exists [x; y; z]; reflexivity ]
      end.
  - eapply mentions_lines; [| apply mentions_itself]. simpl; tauto.
  - intros script -> _. eapply mentions_lines; [| apply mentions_itself].
    simpl; tauto.
Qed.

(** X13.  In the drift case with exactly one unapplied migration, the
    suggested [resolve --applied] names that migration, and the message also
    suggests [prisma introspect]. *)
Theorem status_drift_single_unapplied
    (d : DiagnoseResult) (l : ListMigrationDirectoriesResult) (id : string) :
  hasMigrationsTable d = true ->
  failedMigrationNames d = [] ->
  drift d <> noDrift ->
  history d = databaseIsBehind [id] \/ history d = historiesDiverge [id] ->
  outcome (report d l) = Returned (driftAdvice (rollback_of (drift d)) id) /\
  mentions (driftAdvice (rollback_of (drift d)) id)
    (chalk_bold_greenBright
       (getCommandWithExecutor
          ("prisma migrate resolve --applied " +++ quoted id +++
           " --early-access-feature"))) /\
  mentions (driftAdvice (rollback_of (drift d)) id)
    (chalk_bold_greenBright (getCommandWithExecutor "prisma introspect")).
Proof.
  intros Htable Hfailed Hdrift Hhistory. split; [| split].
  - rewrite (status_drift_answer d l Htable Hfailed).
    + destruct Hhistory as [-> | ->]; reflexivity.
    + unfold applies. destruct (drift d); [congruence |].
      destruct Hhistory as [-> | ->]; reflexivity.
  - eapply mentions_lines.
    + do 11 right. left. reflexivity.
    + apply mentions_right, mentions_left, mentions_itself.
  - eapply mentions_lines.
    + do 7 right. left. reflexivity.
    + apply mentions_right, mentions_left, mentions_itself.
Qed.
End StatusAnswers.

(* ================================================================= *)
(** ** More runs on a plain terminal *)

Section MorePlainRuns.
#[local] Existing Instance plainChalk.
#[local] Existing Instance npxSdk.

Lemma opted_in_with (upgrade connect : Outcome unit)
    (created : Outcome (option string)) (migrate : Migrate) :
  opted_in (environment_with early_access upgrade connect created migrate)
    "prisma/schema.prisma".
Proof.
  unfold opted_in. do 3 eexists. repeat split; reflexivity.
Defined.

(** A run that prints has opted in. *)
Lemma parse_silent_unless_opted_in_witness :
  exists args,
    arg (sample_environment applying_engine) = inl args /\
    flag_help args = false /\
    flag_experimental args = false /\
    flag_early_access_feature args = true /\
    truthy (getSchemaPath (sample_environment applying_engine)
              (flag_schema args)) = true.
Proof.
  apply parse_silent_unless_opted_in.
  left. simpl. discriminate.
Defined.


(** An unknown option is answered with a [HelpError]. *)
Lemma usage_error_returns_help_witness :
  trace (MigrateDeploy.parse
           (environment_with (inr "unknown or unexpected option: --force")
              (Returned tt) (Returned tt) (Returned None) applying_engine)) = [] /\
  exists status_text deploy_text,
    outcome (MigrateStatus.parse
               (environment_with (inr "unknown or unexpected option: --force")
                  (Returned tt) (Returned tt) (Returned None) applying_engine)) =
      Returned (HelpError status_text) /\
    outcome (MigrateDeploy.parse
               (environment_with (inr "unknown or unexpected option: --force")
                  (Returned tt) (Returned tt) (Returned None) applying_engine)) =
      Returned (HelpError deploy_text) /\
    mentions status_text "unknown or unexpected option: --force" /\
    mentions status_text MigrateStatus.help_text /\
    mentions deploy_text "unknown or unexpected option: --force" /\
    mentions deploy_text MigrateDeploy.help_text.
Proof.
  destruct (usage_error_returns_help
              (environment_with (inr "unknown or unexpected option: --force")
                 (Returned tt) (Returned tt) (Returned None) applying_engine)
              "unknown or unexpected option: --force" eq_refl)
    as (_ & Hsilent & _ & Hhelp).
  split; [exact Hsilent |]. apply Hhelp. discriminate.
Defined.

(** The engine fails to apply: the error comes out and [stop] is not
    called. *)
Lemma deploy_stops_only_after_applying_witness :
  outcome (MigrateDeploy.deploy engine_failing_to_apply broken two_migrations) =
    Thrown unreachable /\
  engine_calls
    (trace (MigrateDeploy.deploy engine_failing_to_apply broken two_migrations)) =
    [ApplyMigrations].
Proof.
  destruct (deploy_stops_only_after_applying engine_failing_to_apply broken
              two_migrations) as (Hcalls & Hthrown & _).
  split; [| exact Hcalls].
  apply (Hthrown unreachable). reflexivity.
Defined.

(** The database cannot be reached: neither command calls the engine. *)
Lemma failed_checks_leave_engine_alone_witness :
  outcome (MigrateStatus.parse
             (environment_with early_access (Returned tt) (Thrown unreachable)
                (Thrown unreachable) applying_engine)) = Thrown unreachable /\
  engine_calls
    (trace (MigrateDeploy.parse
              (environment_with early_access (Returned tt) (Thrown unreachable)
                 (Thrown unreachable) applying_engine))) = [].
Proof.
  destruct (failed_checks_leave_engine_alone
              (environment_with early_access (Returned tt) (Thrown unreachable)
                 (Thrown unreachable) applying_engine)
              "prisma/schema.prisma" unreachable
              (opted_in_with _ _ _ _))
    as (_ & Hstatus & Hdeploy).
  split.
  - apply Hstatus; reflexivity.
  - apply Hdeploy; reflexivity.
Defined.

(** The diagnosis fails: nothing is applied and nothing is stopped. *)
Lemma engine_failure_is_passed_on_witness :
  outcome (MigrateDeploy.parse
             (environment_with early_access (Returned tt) (Returned tt)
                (Returned None) failing_engine)) = Thrown unreachable /\
  engine_calls
    (trace (MigrateDeploy.parse
              (environment_with early_access (Returned tt) (Returned tt)
                 (Returned None) failing_engine))) =
    [DiagnoseMigrationHistory] /\
  engine_calls
    (trace (MigrateStatus.parse
              (environment_with early_access (Returned tt) (Returned tt)
                 (Returned None) failing_engine))) =
    [DiagnoseMigrationHistory].
Proof.
  destruct (engine_failure_is_passed_on
              (environment_with early_access (Returned tt) (Returned tt)
                 (Returned None) failing_engine)
              "prisma/schema.prisma" unreachable
              (opted_in_with _ _ _ _) eq_refl eq_refl
              (ex_intro _ None eq_refl))
    as (Hdiagnose & _).
  destruct (Hdiagnose eq_refl) as (_ & Hstatus & Hthrown & Hdeploy).
  repeat split; assumption.
Defined.

(** The status command on an unmanaged database without migrations: the
    engine is stopped, then [HowToBaselineError] is thrown. *)
Lemma status_stops_engine_before_reporting_witness :
  outcome (MigrateStatus.parse
             (sample_environment
                (mkMigrate (Returned unmanaged) (Returned no_migrations)
                   (Returned (mkApplied []))))) =
    Thrown HowToBaselineError /\
  engine_calls
    (trace (MigrateStatus.parse
              (sample_environment
                 (mkMigrate (Returned unmanaged) (Returned no_migrations)
                    (Returned (mkApplied [])))))) =
    [DiagnoseMigrationHistory; ListMigrationDirectories; Stop].
Proof.
  destruct (status_stops_engine_before_reporting
              (sample_environment
                 (mkMigrate (Returned unmanaged) (Returned no_migrations)
                    (Returned (mkApplied []))))
              "prisma/schema.prisma" unmanaged no_migrations)
    as ((loaded & datasource & Htrace) & Houtcome).
  - unfold reaches_diagnosis. do 4 eexists. repeat split; reflexivity.
  - split; [exact Houtcome |]. rewrite Htrace. reflexivity.
Defined.

(** A freshly created database is announced before the diagnosis. *)
Lemma deploy_announces_created_database_witness :
  exists loaded datasource rest,
    trace (MigrateDeploy.parse
             (environment_with early_access (Returned tt) (Returned tt)
                (Returned (Some "PostgreSQL database public created"))
                applying_engine)) =
      ConsoleInfo loaded :: ConsoleInfo datasource ::
      [ConsoleInfo EmptyString;
       ConsoleInfo "PostgreSQL database public created"] ++
      DiagnoseMigrationHistory :: rest.
Proof.
  apply (deploy_announces_created_database
           (environment_with early_access (Returned tt) (Returned tt)
              (Returned (Some "PostgreSQL database public created"))
              applying_engine)
           "prisma/schema.prisma"
           (Some "PostgreSQL database public created")
           (opted_in_with _ _ _ _) eq_refl eq_refl).
Defined.

(** A database that is behind and has not drifted is reported up to date. *)
Lemma status_up_to_date_iff_witness :
  history behind_without_drift = databaseIsBehind [index_migration] /\
  outcome (MigrateStatus.report behind_without_drift two_migrations) =
    Returned MigrateStatus.upToDate.
Proof.
  split; [reflexivity |].
  apply (status_up_to_date_iff behind_without_drift two_migrations).
  repeat split; reflexivity.
Defined.

(** Two failed migrations and a rollback script: both are printed. *)
Lemma status_failed_branch_output_witness :
  exists before,
    trace (MigrateStatus.report failed_with_rollback two_migrations) =
      before ++
      [ConsoleInfo (MigrateStatus.failedNotice [init_migration; index_migration]);
       ConsoleInfo (MigrateStatus.rollbackNotice (Some "DROP TABLE users;"))].
Proof.
  apply (status_failed_branch_output failed_with_rollback two_migrations);
    [reflexivity | discriminate].
Defined.

(** One unapplied migration: it is the one named. *)
Lemma status_drift_single_unapplied_witness :
  outcome (MigrateStatus.report drifted_behind_by_one two_migrations) =
    Returned (MigrateStatus.driftAdvice (Some "DROP TABLE users;")
                index_migration).
Proof.
  apply (status_drift_single_unapplied drifted_behind_by_one two_migrations
           index_migration eq_refl eq_refl).
  - discriminate.
  - left. reflexivity.
Defined.
End MorePlainRuns.
